(** * Mission Sustainability dashboard (MATF.py): dispatch and selection logic

    A shallow embedding of the decision logic of [MATF.py]: the environment
    load, the sample-dataset bootstrap, the agent and team configurations,
    the selection mapping, the local dataset analysis and the
    "Launch Mission" handler.

    Python [str] values are Rocq strings holding the UTF-8 bytes of the
    text.  The collaborators the script calls but does not define (the
    agent runtime, pandas' statistics, the clock) are parameters; the
    Streamlit calls are recorded as events of a trace. *)

From Stdlib Require Import ZArith NArith Ascii String List Bool Lia
  DecimalString.
From stdpp Require Import base strings gmap.
Import ListNotations.

Local Open Scope string_scope.
Local Open Scope Z_scope.

(* ===================================================================== *)
(** ** Python strings *)
(* ===================================================================== *)

Module PyStr.

(** The bytes of a string, as numbers. *)
Fixpoint codes (s : string) : list N :=
  match s with
  | EmptyString => []
  | String c r => N_of_ascii c :: codes r
  end.

Definition between (lo hi b : N) : bool := (lo <=? b)%N && (b <=? hi)%N.

(** [space_width bs] is the number of bytes of the whitespace character
    that starts [bs], or 0 when [bs] does not start with one.  The
    characters are those of [str.isspace]: U+0009..U+000D,
    U+001C..U+0020, U+0085, U+00A0, U+1680, U+2000..U+200A, U+2028,
    U+2029, U+202F, U+205F and U+3000, in their UTF-8 encoding. *)
Definition space_width (bs : list N) : nat :=
  match bs with
  | [] => 0%nat
  | b :: rest =>
      if between 9 13 b || between 28 32 b then 1%nat
      else if (b =? 194)%N then
        match rest with
        | b1 :: _ => if (b1 =? 133)%N || (b1 =? 160)%N then 2%nat else 0%nat
        | _ => 0%nat
        end
      else if (b =? 225)%N then
        match rest with
        | b1 :: b2 :: _ =>
            if (b1 =? 154)%N && (b2 =? 128)%N then 3%nat else 0%nat
        | _ => 0%nat
        end
      else if (b =? 226)%N then
        match rest with
        | b1 :: b2 :: _ =>
            if (b1 =? 128)%N
               && (between 128 138 b2 || between 168 169 b2 || (b2 =? 175)%N)
            then 3%nat
            else if (b1 =? 129)%N && (b2 =? 159)%N then 3%nat else 0%nat
        | _ => 0%nat
        end
      else if (b =? 227)%N then
        match rest with
        | b1 :: b2 :: _ =>
            if (b1 =? 128)%N && (b2 =? 128)%N then 3%nat else 0%nat
        | _ => 0%nat
        end
      else 0%nat
  end.

(** Every character from here on is whitespace, once the [skip] bytes
    that finish the current character are passed. *)
Fixpoint blank_from (skip : nat) (s : string) : bool :=
  match s with
  | EmptyString => true
  | String _ rest =>
      match skip with
      | S k => blank_from k rest
      | O =>
          match space_width (codes s) with
          | O => false
          | S w => blank_from w rest
          end
      end
  end.

Definition isblank (s : string) : bool := blank_from 0 s.

Fixpoint lstrip_from (skip : nat) (s : string) : string :=
  match s with
  | EmptyString => EmptyString
  | String _ rest =>
      match skip with
      | S k => lstrip_from k rest
      | O =>
          match space_width (codes s) with
          | O => s
          | S w => lstrip_from w rest
          end
      end
  end.

Definition lstrip (s : string) : string := lstrip_from 0 s.

Fixpoint rstrip (s : string) : string :=
  match s with
  | EmptyString => EmptyString
  | String c rest => if isblank s then EmptyString else String c (rstrip rest)
  end.

(** [str.strip()] with no argument. *)
Definition strip (s : string) : string := rstrip (lstrip s).

(** Truth value of a string: non-empty. *)
Definition truthy (s : string) : bool :=
  match s with
  | EmptyString => false
  | String _ _ => true
  end.

(** [needle in haystack]. *)
Fixpoint contains (needle haystack : string) : bool :=
  String.prefix needle haystack
  || match haystack with
     | EmptyString => false
     | String _ rest => contains needle rest
     end.

(** ["sep".join(parts)]. *)
Fixpoint join (sep : string) (parts : list string) : string :=
  match parts with
  | [] => ""
  | [p] => p
  | p :: rest => p +:+ sep +:+ join sep rest
  end.

(** [str.split(sep)]: the pieces between the occurrences of the one-byte
    separator [sep]. *)
Fixpoint split (sep : ascii) (s : string) : list string :=
  match s with
  | EmptyString => [EmptyString]
  | String c rest =>
      if Ascii.eqb c sep then EmptyString :: split sep rest
      else match split sep rest with
           | [] => [String c EmptyString]
           | p :: ps => String c p :: ps
           end
  end.

(** [str(n)] for an integer. *)
Definition of_Z (z : Z) : string := NilZero.string_of_int (Z.to_int z).

(** [int(s)] for a decimal literal written the way [of_Z] writes it,
    [None] for anything else. *)
Definition to_Z (s : string) : option Z :=
  match NilZero.int_of_string s with
  | Some d => if String.eqb (of_Z (Z.of_int d)) s then Some (Z.of_int d) else None
  | None => None
  end.

End PyStr.

(* ===================================================================== *)
(** ** Python values, exceptions and outcomes *)
(* ===================================================================== *)

(** The line feed of the script's string literals. *)
Definition nl : string := String (ascii_of_nat 10) EmptyString.

(** Exception classes.  The first three derive from [BaseException] only;
    the others derive from [Exception]. *)
Inductive ExcClass :=
| KeyboardInterrupt | SystemExit | GeneratorExit
| ExceptionBase | AttributeError | TypeError | KeyError | ValueError
| RuntimeError | FileNotFoundError | EmptyDataError | ParserError.

(** A raised exception: its class and [str(e)]. *)
Record PyExc := mkExc { exc_class : ExcClass; exc_str : string }.

(** [isinstance(e, Exception)]. *)
Definition isinstance_Exception (e : PyExc) : bool :=
  match exc_class e with
  | KeyboardInterrupt | SystemExit | GeneratorExit => false
  | _ => true
  end.

Definition isinstance_AttributeError (e : PyExc) : bool :=
  match exc_class e with
  | AttributeError => true
  | _ => false
  end.

(** How a call ends. *)
Inductive Outcome (A : Type) :=
| Returned (a : A)
| Raised (e : PyExc).
Arguments Returned {A} a.
Arguments Raised {A} e.

(** The values a [content] attribute holds. *)
Inductive PyValue :=
| PNone
| PStr (s : string).

(** [str(v)], as an f-string field formats it. *)
Definition py_str (v : PyValue) : string :=
  match v with
  | PNone => "None"
  | PStr s => s
  end.

(** What looking an attribute up on an object does: the object has no such
    attribute, it has one with a value, or it has a property whose getter
    raises. *)
Inductive Attr :=
| AttrAbsent
| AttrValue (v : PyValue)
| AttrRaises (e : PyExc).

(** What [run] returns: [None], or an object with its truth value
    ([__bool__] or [__len__], true when it defines neither) and its
    [content] attribute. *)
Inductive RunResult :=
| ResNone
| ResObject (truth : bool) (content : Attr).

(** [bool(result)]. *)
Definition py_bool (r : RunResult) : bool :=
  match r with
  | ResNone => false
  | ResObject truth _ => truth
  end.

Definition content_attr (r : RunResult) : Attr :=
  match r with
  | ResNone => AttrAbsent
  | ResObject _ content => content
  end.

(* ===================================================================== *)
(** ** Agent and team configurations *)
(* ===================================================================== *)

Inductive Tool := GoogleSearchTools | HackerNewsTools.

Record Groq := mkGroq { id : string }.

Record Agent := mkAgent {
  agent_name : string;
  agent_role : string;
  agent_model : Groq;
  agent_tools : list Tool;
  agent_instructions : string;
  agent_show_tool_calls : bool;
  agent_markdown : bool
}.

(** A team's members are agents or teams. *)
Inductive Team :=
| mkTeam (name mode : string) (model : Groq) (members : list Member)
         (instructions : list string) (show_tool_calls markdown : bool)
with Member :=
| MemberAgent (a : Agent)
| MemberTeam (t : Team).

Definition team_name (t : Team) : string :=
  match t with mkTeam n _ _ _ _ _ _ => n end.
Definition team_members (t : Team) : list Member :=
  match t with mkTeam _ _ _ ms _ _ _ => ms end.


Definition news_analyst : Agent := {|
  agent_name := "📰 News Analyst";
  agent_role := "Track recent news on sustainability initiatives";
  agent_model := mkGroq "qwen/qwen3-32b";
  agent_tools := [GoogleSearchTools];
  agent_instructions := "Find the most relevant city-level green projects from the past year and summarize key findings.";
  agent_show_tool_calls := true;
  agent_markdown := true
|}.

Definition data_analyst : Agent := {|
  agent_name := "📊 Data Analyst";
  agent_role := "Analyze environmental datasets";
  agent_model := mkGroq "qwen/qwen3-32b";
  agent_tools := [];
  agent_instructions := "Read the provided air quality dataset and summarize trends.";
  agent_show_tool_calls := false;
  agent_markdown := true
|}.

Definition policy_reviewer : Agent := {|
  agent_name := "📜 Policy Reviewer";
  agent_role := "Summarize government sustainability policies";
  agent_model := mkGroq "qwen/qwen3-32b";
  agent_tools := [GoogleSearchTools];
  agent_instructions := "Find official city government sources and summarize their recent sustainability policy changes.";
  agent_show_tool_calls := true;
  agent_markdown := true
|}.

Definition innovation_scout : Agent := {|
  agent_name := "💡 Innovations Scout";
  agent_role := "Discover cutting-edge green tech ideas";
  agent_model := mkGroq "qwen/qwen3-32b";
  agent_tools := [HackerNewsTools; GoogleSearchTools];
  agent_instructions := "Search for innovative urban sustainability technologies and describe them in detail.";
  agent_show_tool_calls := true;
  agent_markdown := true
|}.

Definition sustainability_team : Team :=
  mkTeam "🌐 Sustainability Task Force"
         "collaborate"
         (mkGroq "qwen/qwen3-32b")
         [MemberAgent news_analyst; MemberAgent data_analyst;
          MemberAgent policy_reviewer; MemberAgent innovation_scout]
         ["Collaborate to produce a comprehensive sustainability proposal for the city."]
         true true.

(* ===================================================================== *)
(** ** Selection mapping *)
(* ===================================================================== *)

(** The options of the sidebar radio. *)
Definition operatives : list string :=
  ["📰 News Analyst"; "📊 Data Analyst"; "📜 Policy Reviewer";
   "💡 Innovations Scout"; "🌐 Full Task Force"].

Record Selection := mkSelection {
  selected_agent : Member;
  banner_class : string;
  banner_icon : string
}.

(** The [if]/[elif]/[else] chain on [agent_choice]. *)
Definition map_agent_choice (agent_choice : string) : Selection :=
  if String.eqb agent_choice "📰 News Analyst" then
    mkSelection (MemberAgent news_analyst) "news-analyst-banner" "📰"
  else if String.eqb agent_choice "📊 Data Analyst" then
    mkSelection (MemberAgent data_analyst) "data-analyst-banner" "📊"
  else if String.eqb agent_choice "📜 Policy Reviewer" then
    mkSelection (MemberAgent policy_reviewer) "policy-reviewer-banner" "📜"
  else if String.eqb agent_choice "💡 Innovations Scout" then
    mkSelection (MemberAgent innovation_scout) "innovation-scout-banner" "💡"
  else
    mkSelection (MemberTeam sustainability_team) "sustainability-team-banner" "🌐".

(* ===================================================================== *)
(** ** The world the script runs in *)
(* ===================================================================== *)

(** What the script does to its surroundings, in order: the files it reads
    and writes, the calls of [run] on an agent or team, and the Streamlit
    calls of the launch handler. *)
Inductive Event :=
| file_read (path : string)
| file_write (path : string)
| run_call (who : Member) (topic : string)
| st_info (body : string)
| st_spinner (text : string)
| st_markdown (body : string) (unsafe_allow_html : bool)
| st_warning (body : string)
| st_error (body : string).

Record World := mkWorld {
  environ : gmap string string;   (* os.environ *)
  files : gmap string string;     (* the files, by path *)
  trace : list Event
}.

(** A Python computation: it changes the world, and returns or raises.
    The world a raise leaves behind is kept. *)
Definition Py (A : Type) : Type := World -> Outcome A * World.

#[global] Instance Py_ret : MRet Py := fun A a w => (Returned a, w).

#[global] Instance Py_bind : MBind Py := fun A B k m w =>
  match m w with
  | (Returned a, w') => k a w'
  | (Raised e, w') => (Raised e, w')
  end.

Definition raise {A : Type} (e : PyExc) : Py A := fun w => (Raised e, w).

Definition emit (ev : Event) : Py unit := fun w =>
  (Returned (), mkWorld (environ w) (files w) (trace w ++ [ev])).

(** [try: body / except Exception as e: handler e]. *)
Definition try_except_Exception {A : Type} (body : Py A) (handler : PyExc -> Py A)
  : Py A := fun w =>
  match body w with
  | (Returned a, w') => (Returned a, w')
  | (Raised e, w') =>
      if isinstance_Exception e then handler e w' else (Raised e, w')
  end.

(** *** os.environ *)

(** [os.getenv(key)]: [None] when the variable is not set. *)
Definition os_getenv (key : string) : Py (option string) := fun w =>
  (Returned (environ w !! key), w).

(** [os.environ[key] = value]: the value must be a [str]. *)
Definition os_environ_setitem (key : string) (value : option string) : Py unit :=
  match value with
  | Some v => fun w => (Returned (), mkWorld (<[key := v]> (environ w)) (files w) (trace w))
  | None => raise (mkExc TypeError "str expected, not NoneType")
  end.

(** *** pandas tables *)

(** A column: integers, or any other dtype with its cells as written. *)
Inductive Series :=
| Int64 (xs : list Z)
| Other (cells : list string).

(** A table: its columns in order, each with its name. *)
Definition DataFrame : Type := list (string * Series).

Definition columns (df : DataFrame) : list string := map fst df.

(** [name in df.columns]. *)
Definition in_columns (name : string) (df : DataFrame) : bool :=
  existsb (String.eqb name) (columns df).

Definition nrows (df : DataFrame) : nat :=
  match df with
  | [] => 0%nat
  | (_, Int64 xs) :: _ => length xs
  | (_, Other cells) :: _ => length cells
  end.

(** [df[name]]. *)
Fixpoint df_getitem (df : DataFrame) (name : string) : Py Series :=
  match df with
  | [] => raise (mkExc KeyError name)
  | (n, s) :: rest => if String.eqb n name then mret s else df_getitem rest name
  end.

Definition cell_texts (s : Series) : list string :=
  match s with
  | Int64 xs => map PyStr.of_Z xs
  | Other cells => cells
  end.

(** The text [to_csv(index=False)] writes: the header line, then one line
    per row. *)
Definition render_csv (df : DataFrame) : string :=
  let cols := map (fun c => cell_texts (snd c)) df in
  PyStr.join "," (columns df) +:+ nl
  +:+ String.concat "" (map (fun i => PyStr.join "," (map (fun c => nth i c "") cols) +:+ nl)
                            (seq 0 (nrows df))).

Definition infer_dtype (cells : list string) : Series :=
  match cells, mapM PyStr.to_Z cells with
  | _ :: _, Some xs => Int64 xs
  | _, _ => Other cells
  end.

(** The table [read_csv] builds from unquoted comma-separated text: the
    first non-empty line names the columns, a line with fewer fields is
    filled up with empty cells, a line with more fields is an error. *)
Definition parse_csv (text : string) : Outcome DataFrame :=
  match List.filter PyStr.truthy (PyStr.split (ascii_of_nat 10) text) with
  | [] => Raised (mkExc EmptyDataError "No columns to parse from file")
  | header :: lines =>
      let names := PyStr.split "," header in
      let rows := map (PyStr.split ",") lines in
      if existsb (fun r => (length names <? length r)%nat) rows
      then Raised (mkExc ParserError "Error tokenizing data")
      else Returned (map (fun i => (nth i names "", infer_dtype (map (fun r => nth i r "") rows)))
                         (seq 0 (length names)))
  end.

(** [path.exists()]. *)
Definition path_exists (path : string) : Py bool := fun w =>
  (Returned (match files w !! path with Some _ => true | None => false end), w).

(** [df.to_csv(path, index=False)]. *)
Definition to_csv (df : DataFrame) (path : string) : Py unit := fun w =>
  (Returned (),
   mkWorld (environ w) (<[path := render_csv df]> (files w)) (trace w ++ [file_write path])).

(** [pd.read_csv(path)]. *)
Definition read_csv (path : string) : Py DataFrame := fun w =>
  match files w !! path with
  | None =>
      (Raised (mkExc FileNotFoundError
                 ("[Errno 2] No such file or directory: '" +:+ path +:+ "'")), w)
  | Some text => (parse_csv text, mkWorld (environ w) (files w) (trace w ++ [file_read path]))
  end.

(* ===================================================================== *)
(** ** The script *)
(* ===================================================================== *)

(** The collaborators of the script: where it is installed, the variables
    of the [.env] file, the agent runtime's [run], and the clock.  pandas'
    statistics are taken as the text the script prints of them: the
    table of [describe], and the mean of a column of measurements to two
    decimals; how pandas computes them is not modelled. *)
Record Extern := mkExtern {
  script_dir : string;                        (* Path(__file__).parent *)
  dotenv : gmap string string;                (* the .env file *)
  run : Member -> string -> Outcome RunResult;   (* who.run(topic) *)
  describe_to_string : DataFrame -> string;   (* df.describe(include='all').to_string() *)
  mean_2f : Series -> string;                 (* f"{s.mean():.2f}" *)
  strftime_now : string                       (* datetime.now().strftime("%Y-%m-%d %H:%M:%S") *)
}.

Section Script.

Variable ext : Extern.

(** [load_dotenv()]: the variables of the [.env] file that the
    environment does not set yet. *)
Definition load_dotenv : Py unit := fun w =>
  (Returned (), mkWorld (environ w ∪ dotenv ext) (files w) (trace w)).

(** Lines 17-18. *)
Definition load_environment : Py unit :=
  load_dotenv;;
  key ← os_getenv "GROQ_API_KEY";
  os_environ_setitem "GROQ_API_KEY" key.

Definition data_path : string := script_dir ext +:+ "/" +:+ "sample_air_quality.csv".

Definition df_mock : DataFrame :=
  [("Year", Int64 [2021; 2022; 2023]);
   ("PM2.5", Int64 [55; 48; 42]);
   ("CO2", Int64 [400; 395; 390])].

(** Lines 21-28. *)
Definition bootstrap_dataset : Py unit :=
  found ← path_exists data_path;
  if negb found then to_csv df_mock data_path else mret ().

Definition pm25_line (mean : string) : string :=
  "🌫️ **Average PM2.5:** " +:+ mean +:+ " μg/m³".

Definition co2_line (mean : string) : string :=
  "🌍 **Average CO2:** " +:+ mean +:+ " ppm".

Definition report_text (summary trends_text : string) : string :=
  "📊 **Dataset Summary:**" +:+ nl +:+ "```" +:+ nl +:+ summary +:+ nl +:+ "```" +:+ nl +:+ nl
  +:+ "**Environmental Trends:**" +:+ nl +:+ trends_text.

(** Lines 41-50. *)
Definition analyze_dataset : Py string :=
  df ← read_csv data_path;
  let summary := describe_to_string ext df in
  let trends : list string := [] in
  trends ← (if in_columns "PM2.5" df
            then s ← df_getitem df "PM2.5"; mret (trends ++ [pm25_line (mean_2f ext s)])%list
            else mret trends);
  trends ← (if in_columns "CO2" df
            then s ← df_getitem df "CO2"; mret (trends ++ [co2_line (mean_2f ext s)])%list
            else mret trends);
  let trends_text := PyStr.join nl trends in
  mret (report_text summary trends_text).

(** [who.run(topic)] *)
Definition agent_run (who : Member) (topic : string) : Py RunResult := fun w =>
  (run ext who topic, mkWorld (environ w) (files w) (trace w ++ [run_call who topic])).

(** [hasattr(result, "content")]: false when the lookup raises
    [AttributeError]; any other exception of the lookup goes on. *)
Definition hasattr_content (result : RunResult) : Py bool :=
  match content_attr result with
  | AttrAbsent => mret false
  | AttrValue _ => mret true
  | AttrRaises e => if isinstance_AttributeError e then mret false else raise e
  end.

(** [result.content] *)
Definition getattr_content (result : RunResult) : Py PyValue :=
  match content_attr result with
  | AttrAbsent => raise (mkExc AttributeError "object has no attribute 'content'")
  | AttrValue v => mret v
  | AttrRaises e => raise e
  end.

(** The banner and the box of a report. *)
Definition report_markup (sel : Selection) (agent_choice body : string) : string :=
  "<div class='banner " +:+ banner_class sel +:+ "'>" +:+ banner_icon sel +:+ " "
  +:+ agent_choice +:+ " Report</div>"
  +:+ "<div class='agent-box'>" +:+ body +:+ "</div>".

Definition no_content_warning : string := "⚠️ No content returned from the agent.".
Definition no_topic_warning : string := "✏️ Please specify your mission target first.".
Definition mission_error (description : string) : string :=
  "💥 Mission Error: " +:+ description.

(** Lines 221-247; [clicked] is what [st.button] returned. *)
Definition launch_mission (clicked : bool) (agent_choice topic : string) : Py unit :=
  let sel := map_agent_choice agent_choice in
  if clicked then
    if PyStr.truthy (PyStr.strip topic) then
      let mission_time := strftime_now ext in
      emit (st_info ("📅 Mission Start Time: **" +:+ mission_time +:+ "**"));;
      emit (st_spinner ("🔍 Deploying " +:+ agent_choice +:+ "... please stand by..."));;
      try_except_Exception
        (if String.eqb agent_choice "📊 Data Analyst" then
           result_text ← analyze_dataset;
           emit (st_markdown (report_markup sel agent_choice result_text) true)
         else
           result ← agent_run (selected_agent sel) topic;
           shown ← (if py_bool result then hasattr_content result else mret false);
           if shown : bool then
             content ← getattr_content result;
             emit (st_markdown (report_markup sel agent_choice (py_str content)) true)
           else
             emit (st_warning no_content_warning))
        (fun e => emit (st_error (mission_error (exc_str e))))
    else
      emit (st_warning no_topic_warning)
  else mret ().

(** The launch handler with the button pressed. *)
Definition dispatch (agent_choice topic : string) : Py unit :=
  launch_mission true agent_choice topic.

(** The start of the script: the environment, then the dataset. *)
Definition startup : Py unit :=
  load_environment;;
  bootstrap_dataset.

End Script.

(* ===================================================================== *)
(** ** Concrete collaborators and worlds *)
(* ===================================================================== *)

(** Collaborators for running the script on examples: installed in
    [/app], no [.env] file, fixed statistics and clock, and [run] as given. *)
Definition extern_with (r : Member -> string -> Outcome RunResult) : Extern :=
  mkExtern "/app" ∅ r (fun _ => "count 3") (fun _ => "48.33") "2025-01-01 09:00:00".

Definition run_returns (r : RunResult) : Member -> string -> Outcome RunResult :=
  fun _ _ => Returned r.

Definition run_raises (e : PyExc) : Member -> string -> Outcome RunResult :=
  fun _ _ => Raised e.

(** A fresh install: no variable set, no file, nothing done yet. *)
Definition fresh_world : World := mkWorld ∅ ∅ [].

(** The same with the credential set. *)
Definition keyed_world : World := mkWorld {["GROQ_API_KEY" := "gsk-test"]} ∅ [].

(** What a dispatch adds to the trace before the run call returns. *)
Definition launch_prelude (ext : Extern) (agent_choice topic : string) : list Event :=
  [st_info ("📅 Mission Start Time: **" +:+ strftime_now ext +:+ "**");
   st_spinner ("🔍 Deploying " +:+ agent_choice +:+ "... please stand by...");
   run_call (selected_agent (map_agent_choice agent_choice)) topic].

Definition is_markdown (ev : Event) : bool :=
  match ev with
  | st_markdown _ _ => true
  | _ => false
  end.

Definition is_error (ev : Event) : bool :=
  match ev with
  | st_error _ => true
  | _ => false
  end.

Definition is_run_call (ev : Event) : bool :=
  match ev with
  | run_call _ _ => true
  | _ => false
  end.

(** The world with more events in its trace and nothing else changed. *)
Definition with_events (w : World) (evs : list Event) : World :=
  mkWorld (environ w) (files w) (trace w ++ evs).

(** What the mapping's [else] branch selects. *)
Definition full_task_force : Selection :=
  mkSelection (MemberTeam sustainability_team) "sustainability-team-banner" "🌐".



(** Each number is the one before it plus one. *)
Fixpoint consecutive (xs : list Z) : bool :=
  match xs with
  | x :: ((y :: _) as rest) => (y =? x + 1) && consecutive rest
  | _ => true
  end.

Definition boom : PyExc := mkExc RuntimeError "boom".

Definition interrupt : PyExc := mkExc KeyboardInterrupt "".

(** A dataset with the particulate column and no CO2 column. *)
Definition pm_only_csv : string :=
  "Year,PM2.5" +:+ nl +:+ "2021,55" +:+ nl +:+ "2022,48" +:+ nl.

Definition pm_only_world : World :=
  mkWorld ∅ {["/app/sample_air_quality.csv" := pm_only_csv]} [].

Definition is_warning (ev : Event) : bool :=
  match ev with
  | st_warning _ => true
  | _ => false
  end.

Definition is_file_read (ev : Event) : bool :=
  match ev with
  | file_read _ => true
  | _ => false
  end.

Definition is_file_write (ev : Event) : bool :=
  match ev with
  | file_write _ => true
  | _ => false
  end.

(** The calls that show the result of a launch: a report, a warning or an
    error. *)
Definition is_result (ev : Event) : bool :=
  is_markdown ev || is_warning ev || is_error ev.

(** What a Data Analyst dispatch adds to the trace before the analysis. *)
Definition analysis_prelude (ext : Extern) : list Event :=
  [st_info ("📅 Mission Start Time: **" +:+ strftime_now ext +:+ "**");
   st_spinner ("🔍 Deploying " +:+ "📊 Data Analyst" +:+ "... please stand by...")].



(** A dataset with neither column. *)
Definition year_only_csv : string := "Year" +:+ nl +:+ "2021" +:+ nl.

Definition year_only_world : World :=
  mkWorld ∅ {["/app/sample_air_quality.csv" := year_only_csv]} [].

(** A dataset file with nothing in it. *)
Definition empty_file_world : World :=
  mkWorld ∅ {["/app/sample_air_quality.csv" := ""]} [].



(* ===================================================================== *)
(** ** Strings: trimming and search *)
(* ===================================================================== *)

Lemma blank_lstrip_from (s : string) : forall skip,
  PyStr.blank_from 0 (PyStr.lstrip_from skip s) = PyStr.blank_from skip s.
Proof.
  induction s as [|c rest IH]; intros skip; [reflexivity|].
  destruct skip as [|k].
  - cbn [PyStr.lstrip_from PyStr.blank_from].
    destruct (PyStr.space_width (PyStr.codes (String c rest))) as [|width] eqn:Hw.
    + cbn [PyStr.blank_from]. rewrite Hw. reflexivity.
    + apply IH.
  - cbn [PyStr.lstrip_from PyStr.blank_from]. apply IH.
Qed.

Lemma rstrip_empty (s : string) :
  PyStr.rstrip s = "" <-> PyStr.isblank s = true.
Proof.
  destruct s as [|c rest]; [split; reflexivity|].
  cbn [PyStr.rstrip]. destruct (PyStr.isblank (String c rest)); split; congruence.
Qed.

(** Trimming leaves nothing exactly when every character is whitespace. *)
Lemma strip_empty_iff_blank (s : string) :
  PyStr.strip s = "" <-> PyStr.isblank s = true.
Proof.
  unfold PyStr.strip. rewrite rstrip_empty. unfold PyStr.isblank, PyStr.lstrip.
  rewrite blank_lstrip_from. reflexivity.
Qed.

Lemma truthy_nonempty (s : string) : s <> "" -> PyStr.truthy s = true.
Proof. destruct s; [congruence | reflexivity]. Qed.

Lemma append_cons (c : ascii) (x rest : string) :
  String c x +:+ rest = String c (x +:+ rest).
Proof. reflexivity. Qed.

Lemma append_empty (rest : string) : "" +:+ rest = rest.
Proof. reflexivity. Qed.

Lemma prefix_append (x rest : string) : String.prefix x (x +:+ rest) = true.
Proof.
  induction x as [|c x IH].
  - rewrite append_empty. destruct rest; reflexivity.
  - rewrite append_cons. cbn [String.prefix]. rewrite IH.
    destruct (ascii_dec c c); congruence.
Qed.

Lemma contains_append (x before rest : string) :
  PyStr.contains x (before +:+ x +:+ rest) = true.
Proof.
  induction before as [|c before IH].
  - rewrite append_empty. destruct (x +:+ rest) eqn:E; cbn [PyStr.contains];
      rewrite <- E, prefix_append; reflexivity.
  - rewrite append_cons. cbn [PyStr.contains]. rewrite IH. apply orb_true_r.
Qed.

Example strip_spaces : PyStr.strip "  Karachi	 " = "Karachi".
Proof. reflexivity. Qed.

Example strip_inner : PyStr.strip " a b " = "a b".
Proof. reflexivity. Qed.

Example split_csv : PyStr.split "," "a,b,,c" = ["a"; "b"; ""; "c"].
Proof. reflexivity. Qed.

Example to_Z_2021 : PyStr.to_Z "2021" = Some 2021 /\ PyStr.to_Z "20x1" = None
                    /\ PyStr.to_Z "-7" = Some (-7) /\ PyStr.to_Z "" = None.
Proof. vm_compute. repeat split. Qed.

(* ===================================================================== *)
(** ** The launch handler *)
(* ===================================================================== *)

Section Launch.

Variable ext : Extern.

Lemma not_data_analyst (agent_choice : string) :
  agent_choice <> "📊 Data Analyst" ->
  String.eqb agent_choice "📊 Data Analyst" = false.
Proof. intros H. apply String.eqb_neq. exact H. Qed.

(** A dispatch on a topic with text in it, not on the Data Analyst: the
    start-time note, the spinner and the run call, then whatever the
    handler does with what [run] did. *)
Lemma dispatch_runs (agent_choice topic : string) (w : World) :
  PyStr.strip topic <> "" ->
  agent_choice <> "📊 Data Analyst" ->
  dispatch ext agent_choice topic w =
    let sel := map_agent_choice agent_choice in
    let w1 := with_events w (launch_prelude ext agent_choice topic) in
    match run ext (selected_agent sel) topic with
    | Returned result =>
        try_except_Exception
          (shown ← (if py_bool result then hasattr_content result else mret false);
           if shown : bool then
             content ← getattr_content result;
             emit (st_markdown (report_markup sel agent_choice (py_str content)) true)
           else emit (st_warning no_content_warning))
          (fun e => emit (st_error (mission_error (exc_str e)))) w1
    | Raised e =>
        if isinstance_Exception e
        then (Returned (), with_events w1 [st_error (mission_error (exc_str e))])
        else (Raised e, w1)
    end.
Proof.
  intros Htopic Hchoice.
  unfold dispatch, launch_mission.
  rewrite (truthy_nonempty _ Htopic), (not_data_analyst _ Hchoice).
  unfold mbind, Py_bind, emit, try_except_Exception, agent_run, with_events,
    launch_prelude.
  cbn [environ files trace].
  rewrite <- !app_assoc. cbn [app].
  destruct (run ext (selected_agent (map_agent_choice agent_choice)) topic)
    as [result|e]; [reflexivity|].
  destruct (isinstance_Exception e); cbn [environ files trace];
    rewrite <- ?app_assoc; reflexivity.
Qed.

(** C3. A topic that is empty once trimmed (empty, or whitespace only):
    for every selection, the dispatch makes the one call
    [st.warning] of the input-validation message and nothing else: [run]
    is not called, no file is read or written, the environment is the
    same. *)
Theorem dispatch_blank_topic (agent_choice topic : string) (w : World) :
  PyStr.strip topic = "" ->
  dispatch ext agent_choice topic w
  = (Returned (), with_events w [st_warning no_topic_warning])
  /\ existsb is_run_call (trace (snd (dispatch ext agent_choice topic w)))
     = existsb is_run_call (trace w).
Proof.
  intros Hblank.
  assert (Hd : dispatch ext agent_choice topic w
               = (Returned (), with_events w [st_warning no_topic_warning])).
  { unfold dispatch, launch_mission. rewrite Hblank. reflexivity. }
  split; [exact Hd|].
  rewrite Hd. cbn [snd with_events trace].
  rewrite existsb_app. cbn. apply orb_false_r.
Qed.

(** C1, as the handler has it.  On a topic with text in it and a
    selection other than the Data Analyst, when [run] raises an exception
    that is an instance of [Exception], the dispatch returns: after the
    run call it makes the one call [st.error] whose message is the
    mission-error prefix followed by [str(e)], so the message contains
    the exception's description. *)
Theorem dispatch_run_raises_Exception
  (agent_choice topic : string) (e : PyExc) (w : World) :
  PyStr.strip topic <> "" ->
  agent_choice <> "📊 Data Analyst" ->
  run ext (selected_agent (map_agent_choice agent_choice)) topic = Raised e ->
  isinstance_Exception e = true ->
  dispatch ext agent_choice topic w
  = (Returned (),
     with_events w (launch_prelude ext agent_choice topic
                    ++ [st_error (mission_error (exc_str e))]))
  /\ PyStr.contains (exc_str e) (mission_error (exc_str e)) = true.
Proof.
  intros Htopic Hchoice Hrun Hexc. split.
  - rewrite (dispatch_runs _ _ _ Htopic Hchoice). cbv zeta.
    rewrite Hrun, Hexc. unfold with_events. cbn [environ files trace].
    rewrite <- app_assoc. reflexivity.
  - unfold mission_error.
    replace (exc_str e) with (exc_str e +:+ "") at 2
      by (induction (exc_str e) as [|c s IH];
          [reflexivity | rewrite append_cons, IH; reflexivity]).
    apply contains_append.
Qed.



(** C10. On a topic with text in it and a selection other than the Data
    Analyst, when [run] returns a result that is false as a condition
    ([None], or any object that is false, whatever its [content]
    attribute is or does when read), the dispatch returns with the one
    call [st.warning] of the no-content message after the run call: no
    [st.error] and no [st.markdown]. *)
Theorem dispatch_falsy_result
  (agent_choice topic : string) (result : RunResult) (w : World) :
  PyStr.strip topic <> "" ->
  agent_choice <> "📊 Data Analyst" ->
  run ext (selected_agent (map_agent_choice agent_choice)) topic = Returned result ->
  py_bool result = false ->
  dispatch ext agent_choice topic w
  = (Returned (),
     with_events w (launch_prelude ext agent_choice topic
                    ++ [st_warning no_content_warning]))
  /\ existsb (fun ev => is_markdown ev || is_error ev)
       (launch_prelude ext agent_choice topic ++ [st_warning no_content_warning])
     = false.
Proof.
  intros Htopic Hchoice Hrun Htruth. split; [|reflexivity].
  rewrite (dispatch_runs _ _ _ Htopic Hchoice). cbv zeta. rewrite Hrun, Htruth.
  unfold try_except_Exception, mbind, Py_bind, emit, with_events.
  cbn [mret Py_ret environ files trace].
  rewrite <- app_assoc. reflexivity.
Qed.

End Launch.

(* ===================================================================== *)
(** ** The selection mapping and the configurations *)
(* ===================================================================== *)

(** C4. The mapping is a function of the label alone.  The five labels of
    the radio resolve, in order, to the four agents and the team, each
    with its banner class and icon; whatever the input, the class and the
    icon are not empty; and every input that is none of the first four
    labels (the fifth label, or anything else) resolves to the Full Task
    Force team. *)
Theorem map_agent_choice_total (agent_choice : string) :
  map map_agent_choice operatives
  = [mkSelection (MemberAgent news_analyst) "news-analyst-banner" "📰";
     mkSelection (MemberAgent data_analyst) "data-analyst-banner" "📊";
     mkSelection (MemberAgent policy_reviewer) "policy-reviewer-banner" "📜";
     mkSelection (MemberAgent innovation_scout) "innovation-scout-banner" "💡";
     full_task_force]
  /\ PyStr.truthy (banner_class (map_agent_choice agent_choice)) = true
  /\ PyStr.truthy (banner_icon (map_agent_choice agent_choice)) = true
  /\ (agent_choice <> "📰 News Analyst" ->
      agent_choice <> "📊 Data Analyst" ->
      agent_choice <> "📜 Policy Reviewer" ->
      agent_choice <> "💡 Innovations Scout" ->
      map_agent_choice agent_choice = full_task_force).
Proof.
  split; [reflexivity|].
  unfold map_agent_choice.
  destruct (String.eqb_spec agent_choice "📰 News Analyst") as [|H1];
    [repeat split; intros; congruence|].
  destruct (String.eqb_spec agent_choice "📊 Data Analyst") as [|H2];
    [repeat split; intros; congruence|].
  destruct (String.eqb_spec agent_choice "📜 Policy Reviewer") as [|H3];
    [repeat split; intros; congruence|].
  destruct (String.eqb_spec agent_choice "💡 Innovations Scout") as [|H4];
    [repeat split; intros; congruence|].
  repeat split.
Qed.

Lemma map_agent_choice_full_task_force_witness :
  map_agent_choice "🌐 Full Task Force" = full_task_force
  /\ map_agent_choice "🛸 Unknown Operative" = full_task_force.
Proof.
  split.
  - apply (map_agent_choice_total "🌐 Full Task Force"); discriminate.
  - apply (map_agent_choice_total "🛸 Unknown Operative"); discriminate.
Defined.



(* ===================================================================== *)
(** ** The dataset: analysis and bootstrap; the environment *)
(* ===================================================================== *)

Section Dataset.

Variable ext : Extern.





Lemma bootstrap_dataset_present (w : World) (text : string) :
  files w !! data_path ext = Some text ->
  bootstrap_dataset ext w = (Returned (), w).
Proof.
  intros Hfile. unfold bootstrap_dataset, mbind, Py_bind, path_exists.
  rewrite Hfile. reflexivity.
Qed.

Lemma parse_render_df_mock : parse_csv (render_csv df_mock) = Returned df_mock.
Proof. vm_compute. reflexivity. Qed.

(** C7. When the file is there, the bootstrap writes nothing: the world
    is left as it is.  When it is not, the bootstrap writes it once; a
    second run right after leaves the world as the first left it, so the
    two runs make one write; and the file then loads into the table with
    the columns Year, PM2.5 and CO2, the years 2021, 2022, 2023 following
    one another, and three rows. *)
Theorem bootstrap_dataset_once (w : World) :
  (forall text : string,
     files w !! data_path ext = Some text ->
     bootstrap_dataset ext w = (Returned (), w))
  /\ (files w !! data_path ext = None ->
      exists w1 : World,
        bootstrap_dataset ext w = (Returned (), w1)
        /\ trace w1 = (trace w ++ [file_write (data_path ext)])%list
        /\ bootstrap_dataset ext w1 = (Returned (), w1)
        /\ exists df : DataFrame,
             read_csv (data_path ext) w1
             = (Returned df, with_events w1 [file_read (data_path ext)])
             /\ columns df = ["Year"; "PM2.5"; "CO2"]
             /\ (exists (years : list Z) (rest : DataFrame),
                   df = ("Year", Int64 years) :: rest /\ consecutive years = true)
             /\ (3 <= nrows df)%nat).
Proof.
  split; [apply bootstrap_dataset_present|].
  intros Hnone.
  set (w1 := mkWorld (environ w) (<[data_path ext := render_csv df_mock]> (files w))
                     (trace w ++ [file_write (data_path ext)])).
  assert (Hfile : files w1 !! data_path ext = Some (render_csv df_mock))
    by apply lookup_insert_eq.
  exists w1. split; [|split; [reflexivity|split]].
  - unfold bootstrap_dataset, mbind, Py_bind, path_exists. rewrite Hnone. reflexivity.
  - exact (bootstrap_dataset_present w1 _ Hfile).
  - exists df_mock. split; [|split; [reflexivity|split]].
    + unfold read_csv. rewrite Hfile, parse_render_df_mock. reflexivity.
    + exists [2021; 2022; 2023], (tl df_mock). split; reflexivity.
    + cbn. lia.
Qed.

(** C9. When neither the process environment nor the [.env] file sets
    [GROQ_API_KEY], the start of the script does not check for it: the
    assignment to [os.environ] raises the [TypeError] of a value that is
    not a string, whose text does not name the variable, and the script
    has shown nothing and written nothing by then. *)
Theorem startup_without_credential (w : World) :
  environ w !! "GROQ_API_KEY" = None ->
  dotenv ext !! "GROQ_API_KEY" = None ->
  startup ext w
  = (Raised (mkExc TypeError "str expected, not NoneType"),
     mkWorld (environ w ∪ dotenv ext) (files w) (trace w))
  /\ PyStr.contains "GROQ_API_KEY" "str expected, not NoneType" = false
  /\ PyStr.contains "configuration" "str expected, not NoneType" = false.
Proof.
  intros Henv Hdot. split; [|split; reflexivity].
  assert (Hnone : (environ w ∪ dotenv ext) !! "GROQ_API_KEY" = None)
    by (apply lookup_union_None; split; assumption).
  unfold startup, load_environment, mbind, Py_bind, load_dotenv, os_getenv.
  cbn [environ files trace]. rewrite Hnone. reflexivity.
Qed.

(** With the credential set, the environment load returns and leaves the
    variable as it was. *)
Lemma load_environment_with_credential (w : World) (key : string) :
  (environ w ∪ dotenv ext) !! "GROQ_API_KEY" = Some key ->
  load_environment ext w
  = (Returned (), mkWorld (environ w ∪ dotenv ext) (files w) (trace w)).
Proof.
  intros Hkey.
  unfold load_environment, mbind, Py_bind, load_dotenv, os_getenv.
  cbn [environ files trace]. rewrite Hkey.
  unfold os_environ_setitem. cbn [environ files trace].
  rewrite (insert_id _ _ _ Hkey). reflexivity.
Qed.

End Dataset.

(* ===================================================================== *)
(** ** The theorems at concrete inputs *)
(* ===================================================================== *)

Lemma dispatch_blank_topic_witness :
  PyStr.strip (" " +:+ nl +:+ "  ") = ""
  /\ dispatch (extern_with (run_returns ResNone)) "🌐 Full Task Force"
       (" " +:+ nl +:+ "  ") fresh_world
     = (Returned (), with_events fresh_world [st_warning no_topic_warning]).
Proof.
  split; [reflexivity|].
  apply (dispatch_blank_topic (extern_with (run_returns ResNone))
           "🌐 Full Task Force" (" " +:+ nl +:+ "  ") fresh_world).
  reflexivity.
Defined.

Lemma dispatch_run_raises_Exception_witness :
  dispatch (extern_with (run_raises boom)) "📰 News Analyst" "Karachi" fresh_world
  = (Returned (),
     with_events fresh_world
       (launch_prelude (extern_with (run_raises boom)) "📰 News Analyst" "Karachi"
        ++ [st_error (mission_error "boom")]))
  /\ PyStr.contains "boom" (mission_error "boom") = true.
Proof.
  apply (dispatch_run_raises_Exception (extern_with (run_raises boom))
           "📰 News Analyst" "Karachi" boom fresh_world).
  - vm_compute. discriminate.
  - discriminate.
  - reflexivity.
  - reflexivity.
Defined.

(** C1 as stated fails: [KeyboardInterrupt] is an exception and not an
    instance of [Exception].  When [run] raises it, on a topic with text
    in it and on the News Analyst, the dispatch raises it too, and makes
    no [st.error] call. *)
Lemma dispatch_KeyboardInterrupt_propagates :
  PyStr.strip "Karachi" = "Karachi"
  /\ run (extern_with (run_raises interrupt))
       (selected_agent (map_agent_choice "📰 News Analyst")) "Karachi"
     = Raised interrupt
  /\ dispatch (extern_with (run_raises interrupt)) "📰 News Analyst" "Karachi"
       fresh_world
     = (Raised interrupt,
        with_events fresh_world
          (launch_prelude (extern_with (run_raises interrupt))
             "📰 News Analyst" "Karachi"))
  /\ existsb is_error
       (trace (snd (dispatch (extern_with (run_raises interrupt))
                      "📰 News Analyst" "Karachi" fresh_world)))
     = false.
Proof. repeat split. Qed.




Lemma dispatch_falsy_result_witness :
  dispatch (extern_with (run_returns ResNone)) "💡 Innovations Scout" "Karachi"
    fresh_world
  = (Returned (),
     with_events fresh_world
       (launch_prelude (extern_with (run_returns ResNone))
          "💡 Innovations Scout" "Karachi"
        ++ [st_warning no_content_warning]))
  /\ dispatch (extern_with (run_returns (ResObject false (AttrRaises boom))))
       "💡 Innovations Scout" "Karachi" fresh_world
     = (Returned (),
        with_events fresh_world
          (launch_prelude (extern_with (run_returns (ResObject false (AttrRaises boom))))
             "💡 Innovations Scout" "Karachi"
           ++ [st_warning no_content_warning])).
Proof.
  split.
  - apply (dispatch_falsy_result (extern_with (run_returns ResNone))
             "💡 Innovations Scout" "Karachi" ResNone fresh_world).
    + vm_compute. discriminate.
    + discriminate.
    + reflexivity.
    + reflexivity.
  - apply (dispatch_falsy_result
             (extern_with (run_returns (ResObject false (AttrRaises boom))))
             "💡 Innovations Scout" "Karachi"
             (ResObject false (AttrRaises boom)) fresh_world).
    + vm_compute. discriminate.
    + discriminate.
    + reflexivity.
    + reflexivity.
Defined.


Lemma bootstrap_dataset_once_witness :
  files fresh_world !! data_path (extern_with (run_returns ResNone)) = None
  /\ files pm_only_world !! data_path (extern_with (run_returns ResNone))
     = Some pm_only_csv
  /\ bootstrap_dataset (extern_with (run_returns ResNone)) pm_only_world
     = (Returned (), pm_only_world)
  /\ exists w1 : World,
       bootstrap_dataset (extern_with (run_returns ResNone)) fresh_world
       = (Returned (), w1)
       /\ trace w1 = [file_write "/app/sample_air_quality.csv"]
       /\ bootstrap_dataset (extern_with (run_returns ResNone)) w1 = (Returned (), w1).
Proof.
  split; [reflexivity|]. split; [vm_compute; reflexivity|]. split.
  - apply (bootstrap_dataset_once (extern_with (run_returns ResNone)) pm_only_world)
      with (text := pm_only_csv).
    vm_compute. reflexivity.
  - destruct (bootstrap_dataset_once (extern_with (run_returns ResNone)) fresh_world)
      as [_ Hfresh].
    destruct Hfresh as (w1 & H1 & Htrace & H2 & _); [reflexivity|].
    exists w1. repeat split; assumption.
Defined.

Lemma startup_without_credential_witness :
  startup (extern_with (run_returns ResNone)) fresh_world
  = (Raised (mkExc TypeError "str expected, not NoneType"), fresh_world).
Proof.
  destruct (startup_without_credential (extern_with (run_returns ResNone)) fresh_world)
    as [Hstart _]; [reflexivity | reflexivity |].
  rewrite Hstart. vm_compute. reflexivity.
Defined.

(** With the credential set, the start of the script goes on to the
    dataset and writes it. *)
Example startup_with_credential :
  fst (startup (extern_with (run_returns ResNone)) keyed_world) = Returned ()
  /\ trace (snd (startup (extern_with (run_returns ResNone)) keyed_world))
     = [file_write "/app/sample_air_quality.csv"].
Proof. vm_compute. split; reflexivity. Qed.

(** The Data Analyst on the bootstrapped dataset: both trend lines. *)
Example dispatch_data_analyst_both_lines :
  exists body : string,
    trace (snd (dispatch (extern_with (run_returns ResNone)) "📊 Data Analyst" "Karachi"
                  (snd (bootstrap_dataset (extern_with (run_returns ResNone)) fresh_world))))
    = [file_write "/app/sample_air_quality.csv";
       st_info "📅 Mission Start Time: **2025-01-01 09:00:00**";
       st_spinner "🔍 Deploying 📊 Data Analyst... please stand by...";
       file_read "/app/sample_air_quality.csv";
       st_markdown body true]
    /\ PyStr.contains (pm25_line "48.33") body = true
    /\ PyStr.contains (co2_line "48.33") body = true.
Proof. eexists. vm_compute. repeat split. Qed.

(* ===================================================================== *)
(** ** Further properties of the analysis, the bootstrap and the start *)
(* ===================================================================== *)

Section Analysis.

Variable ext : Extern.

Lemma df_getitem_found (name : string) (df : DataFrame) :
  in_columns name df = true ->
  exists s : Series,
    In (name, s) df /\ forall w : World, df_getitem df name w = (Returned s, w).
Proof.
  unfold in_columns, columns.
  induction df as [|[n s] rest IH]; cbn [map existsb fst df_getitem]; [discriminate|].
  rewrite (String.eqb_sym n name).
  destruct (String.eqb_spec name n) as [->|Hne].
  - intros _. exists s. split; [left; reflexivity | reflexivity].
  - cbn [orb]. intros Hrest. destruct (IH Hrest) as (s' & Hin & Hget).
    exists s'. split; [right; exact Hin | exact Hget].
Qed.

Lemma parse_csv_raises (text : string) (e : PyExc) :
  parse_csv text = Raised e -> isinstance_Exception e = true.
Proof.
  unfold parse_csv.
  destruct (List.filter PyStr.truthy (PyStr.split (ascii_of_nat 10) text))
    as [|header lines].
  - intros [= <-]. reflexivity.
  - destruct (existsb _ _); [intros [= <-]; reflexivity | discriminate].
Qed.

(** What the analysis does, by what the dataset file holds. *)
Lemma analyze_dataset_cases (w : World) :
  match files w !! data_path ext with
  | None =>
      exists e : PyExc,
        analyze_dataset ext w = (Raised e, w) /\ isinstance_Exception e = true
        /\ read_csv (data_path ext) w = (Raised e, w)
  | Some text =>
      match parse_csv text with
      | Raised e =>
          analyze_dataset ext w
          = (Raised e, with_events w [file_read (data_path ext)])
          /\ isinstance_Exception e = true
      | Returned df =>
          exists report : string,
            analyze_dataset ext w
            = (Returned report, with_events w [file_read (data_path ext)])
      end
  end.
Proof.
  unfold analyze_dataset, mbind, Py_bind, read_csv.
  destruct (files w !! data_path ext) as [text|].
  - destruct (parse_csv text) as [df|e] eqn:Hparse.
    + destruct (in_columns "PM2.5" df) eqn:Hpm; destruct (in_columns "CO2" df) eqn:Hco.
      * destruct (df_getitem_found _ _ Hpm) as (s1 & _ & H1).
        destruct (df_getitem_found _ _ Hco) as (s2 & _ & H2).
        rewrite H1. cbn [mret Py_ret]. rewrite H2. eexists. reflexivity.
      * destruct (df_getitem_found _ _ Hpm) as (s1 & _ & H1).
        rewrite H1. eexists. reflexivity.
      * destruct (df_getitem_found _ _ Hco) as (s2 & _ & H2).
        cbn [mret Py_ret]. rewrite H2. eexists. reflexivity.
      * eexists. reflexivity.
    + split; [reflexivity | exact (parse_csv_raises _ _ Hparse)].
  - eexists. repeat split.
Qed.


(** X8. When the table has neither column, the analysis still returns:
    the report ends with the trends heading and nothing under it. *)
Theorem analyze_dataset_no_trends (w w' : World) (df : DataFrame) :
  read_csv (data_path ext) w = (Returned df, w') ->
  in_columns "PM2.5" df = false ->
  in_columns "CO2" df = false ->
  analyze_dataset ext w
  = (Returned (report_text (describe_to_string ext df) ""), w')
  /\ report_text (describe_to_string ext df) ""
     = "📊 **Dataset Summary:**" +:+ nl +:+ "```" +:+ nl +:+ describe_to_string ext df
       +:+ nl +:+ "```" +:+ nl +:+ nl +:+ "**Environmental Trends:**" +:+ nl.
Proof.
  intros Hread Hpm Hco. split.
  - unfold analyze_dataset, mbind, Py_bind. rewrite Hread, Hpm, Hco. reflexivity.
  - unfold report_text.
    assert (Hnil : forall s : string, s +:+ "" = s).
    { induction s as [|c s IH]; [reflexivity|]. rewrite append_cons, IH. reflexivity. }
    rewrite (Hnil nl) at 1. reflexivity.
Qed.




End Analysis.

(** X13. Whenever the mapping selects a single agent, the agent's name is
    the label that was chosen; so the banner, which prints the label,
    names the agent that runs. *)
Theorem selected_agent_name (agent_choice : string) (a : Agent) :
  selected_agent (map_agent_choice agent_choice) = MemberAgent a ->
  agent_name a = agent_choice.
Proof.
  unfold map_agent_choice.
  destruct (String.eqb_spec agent_choice "📰 News Analyst") as [->|_];
    [intros [= <-]; reflexivity|].
  destruct (String.eqb_spec agent_choice "📊 Data Analyst") as [->|_];
    [intros [= <-]; reflexivity|].
  destruct (String.eqb_spec agent_choice "📜 Policy Reviewer") as [->|_];
    [intros [= <-]; reflexivity|].
  destruct (String.eqb_spec agent_choice "💡 Innovations Scout") as [->|_];
    [intros [= <-]; reflexivity|].
  discriminate.
Qed.

(** The handler takes the analysis path exactly when the mapping selected
    the data analyst. *)
Lemma data_analyst_selected (agent_choice : string) :
  String.eqb agent_choice "📊 Data Analyst" = true
  <-> selected_agent (map_agent_choice agent_choice) = MemberAgent data_analyst.
Proof.
  unfold map_agent_choice.
  destruct (String.eqb_spec agent_choice "📰 News Analyst") as [->|_];
    [split; discriminate|].
  destruct (String.eqb agent_choice "📊 Data Analyst"); [split; reflexivity|].
  destruct (String.eqb agent_choice "📜 Policy Reviewer"); [split; discriminate|].
  destruct (String.eqb agent_choice "💡 Innovations Scout"); split; discriminate.
Qed.

(** X14. Every agent that the mapping can select alone is a member of the
    team that the mapping selects otherwise. *)
Theorem selected_agent_in_team (agent_choice : string) (a : Agent) :
  selected_agent (map_agent_choice agent_choice) = MemberAgent a ->
  In (MemberAgent a) (team_members sustainability_team).
Proof.
  unfold map_agent_choice.
  repeat match goal with
         | |- context [String.eqb ?x ?y] => destruct (String.eqb x y)
         end; intros [= <-]; cbn; auto 6.
Qed.

(* ===================================================================== *)
(** ** Further properties of the launch handler *)
(* ===================================================================== *)

Section Handler.

Variable ext : Extern.

Lemma file_reads_not_results (evs : list Event) :
  forallb is_file_read evs = true ->
  List.filter is_result evs = [] /\ List.filter is_run_call evs = []
  /\ existsb is_file_write evs = false.
Proof.
  induction evs as [|ev evs IH]; [repeat split|].
  cbn [forallb]. intros [Hev Hrest]%andb_true_iff.
  destruct (IH Hrest) as (H1 & H2 & H3).
  destruct ev; try discriminate. cbn. rewrite H1, H2, H3. repeat split.
Qed.

(** A Data Analyst dispatch on a topic with text in it: the start-time
    note and the spinner, the analysis, then the report or the error. *)
Lemma dispatch_analyzes (topic : string) (w : World) :
  PyStr.strip topic <> "" ->
  dispatch ext "📊 Data Analyst" topic w
  = match analyze_dataset ext (with_events w (analysis_prelude ext)) with
    | (Returned report, w') =>
        (Returned (),
         with_events w'
           [st_markdown
              (report_markup (map_agent_choice "📊 Data Analyst") "📊 Data Analyst" report)
              true])
    | (Raised e, w') =>
        if isinstance_Exception e
        then (Returned (), with_events w' [st_error (mission_error (exc_str e))])
        else (Raised e, w')
    end.
Proof.
  intros Htopic. unfold dispatch, launch_mission.
  rewrite (truthy_nonempty _ Htopic).
  replace (String.eqb "📊 Data Analyst" "📊 Data Analyst") with true by reflexivity.
  unfold mbind at 1 2, Py_bind at 1 2, emit at 1 2, try_except_Exception.
  cbn [environ files trace].
  replace (mkWorld (environ w) (files w) _)
    with (with_events w (analysis_prelude ext))
    by (unfold with_events, analysis_prelude; rewrite <- app_assoc; reflexivity).
  unfold mbind, Py_bind.
  destruct (analyze_dataset ext (with_events w (analysis_prelude ext)))
    as [[report|e] w']; reflexivity.
Qed.

(** What every launch leaves behind: the environment and the files as
    they were, the trace longer by [evs]; the run calls among [evs]; and
    how many calls among [evs] show a result. *)
Lemma launch_mission_shape (clicked : bool) (agent_choice topic : string) (w : World) :
  environ (snd (launch_mission ext clicked agent_choice topic w)) = environ w
  /\ files (snd (launch_mission ext clicked agent_choice topic w)) = files w
  /\ exists evs : list Event,
       trace (snd (launch_mission ext clicked agent_choice topic w)) = (trace w ++ evs)%list
       /\ existsb is_file_write evs = false
       /\ List.filter is_run_call evs
          = (if clicked && PyStr.truthy (PyStr.strip topic)
                && negb (String.eqb agent_choice "📊 Data Analyst")
             then [run_call (selected_agent (map_agent_choice agent_choice)) topic]
             else [])
       /\ match fst (launch_mission ext clicked agent_choice topic w) with
          | Returned _ =>
              length (List.filter is_result evs) = (if clicked then 1 else 0)%nat
          | Raised e =>
              List.filter is_result evs = [] /\ isinstance_Exception e = false
              /\ clicked = true /\ PyStr.truthy (PyStr.strip topic) = true
          end.
Proof.
  destruct clicked; [|repeat split; exists []; rewrite app_nil_r; repeat split].
  destruct (PyStr.strip topic) as [|c rest] eqn:Hstrip.
  { unfold launch_mission. rewrite Hstrip. cbn.
    repeat split. eexists. repeat split. }
  assert (Htopic : PyStr.strip topic <> "") by (rewrite Hstrip; discriminate).
  clear Hstrip. change (launch_mission ext true agent_choice topic w)
    with (dispatch ext agent_choice topic w).
  cbn [andb PyStr.truthy].
  destruct (String.eqb_spec agent_choice "📊 Data Analyst") as [->|Hchoice]; cbn [negb].
  - rewrite (dispatch_analyzes _ _ Htopic).
    pose proof (analyze_dataset_cases ext (with_events w (analysis_prelude ext))) as Hcases.
    cbn [with_events files] in Hcases.
    destruct (files w !! data_path ext) as [text|].
    + destruct (parse_csv text) as [df|e].
      * destruct Hcases as [report ->]. cbn.
        repeat split. eexists. split; [rewrite <- !app_assoc; reflexivity|].
        repeat split.
      * destruct Hcases as [-> ->]. cbn.
        repeat split. eexists. split; [rewrite <- !app_assoc; reflexivity|].
        repeat split.
    + destruct Hcases as (e & -> & -> & _). cbn.
      repeat split. eexists. split; [rewrite <- !app_assoc; reflexivity|].
      repeat split.
  - rewrite (dispatch_runs _ _ _ _ Htopic Hchoice). cbv zeta.
    unfold try_except_Exception, mbind, Py_bind, hasattr_content, getattr_content,
      emit, with_events, launch_prelude.
    destruct (run ext (selected_agent (map_agent_choice agent_choice)) topic)
      as [[|truth [|v|e]]|e].
    + cbn. repeat split. eexists. split; [rewrite <- !app_assoc; reflexivity|].
      repeat split.
    + destruct truth; cbn; repeat split; eexists;
        (split; [rewrite <- !app_assoc; reflexivity|]); repeat split.
    + destruct truth; cbn; repeat split; eexists;
        (split; [rewrite <- !app_assoc; reflexivity|]); repeat split.
    + destruct truth; cbn [py_bool content_attr].
      * destruct (isinstance_AttributeError e) eqn:Hattr.
        -- cbn. repeat split. eexists.
           split; [rewrite <- !app_assoc; reflexivity|]. repeat split.
        -- unfold raise. destruct (isinstance_Exception e) eqn:Hexc; cbn;
             repeat split; try exact Hexc; eexists;
             (split; [rewrite <- ?app_assoc; reflexivity|]); repeat split;
             exact Hexc.
      * cbn. repeat split. eexists.
        split; [rewrite <- !app_assoc; reflexivity|]. repeat split.
    + destruct (isinstance_Exception e) eqn:Hexc; cbn;
        repeat split; eexists;
        (split; [rewrite <- ?app_assoc; reflexivity|]); repeat split; exact Hexc.
Qed.

(** X1. An exception leaves the launch handler only when the button was
    pressed on a topic with text in it and the exception is not an
    instance of [Exception]; the handler has then shown no report, no
    warning and no error. *)
Theorem launch_mission_escapes
  (clicked : bool) (agent_choice topic : string) (w : World) (e : PyExc) :
  fst (launch_mission ext clicked agent_choice topic w) = Raised e ->
  isinstance_Exception e = false
  /\ clicked = true
  /\ PyStr.strip topic <> ""
  /\ exists evs : list Event,
       trace (snd (launch_mission ext clicked agent_choice topic w)) = (trace w ++ evs)%list
       /\ existsb is_result evs = false.
Proof.
  intros Hraised.
  destruct (launch_mission_shape clicked agent_choice topic w)
    as (_ & _ & evs & Htrace & _ & _ & Hres).
  rewrite Hraised in Hres. destruct Hres as (Hnone & Hexc & Hclick & Htopic).
  repeat split; try assumption.
  - intros Hblank. rewrite Hblank in Htopic. discriminate.
  - exists evs. split; [exact Htrace|].
    destruct (existsb is_result evs) eqn:Hex; [|reflexivity].
    apply existsb_exists in Hex. destruct Hex as (ev & Hin & Hev).
    assert (Hf : In ev (List.filter is_result evs)) by (apply filter_In; auto).
    rewrite Hnone in Hf. destruct Hf.
Qed.


(** X3. The handler calls [run] at most once: exactly when the button was
    pressed, the topic has text in it and the choice is not the Data
    Analyst; the call is on the selected agent or team, with the topic as
    it was typed (not trimmed). *)
Theorem launch_mission_run_calls
  (clicked : bool) (agent_choice topic : string) (w : World) :
  List.filter is_run_call (trace (snd (launch_mission ext clicked agent_choice topic w)))
  = (List.filter is_run_call (trace w)
     ++ (if clicked && PyStr.truthy (PyStr.strip topic)
            && negb (String.eqb agent_choice "📊 Data Analyst")
         then [run_call (selected_agent (map_agent_choice agent_choice)) topic]
         else []))%list.
Proof.
  destruct (launch_mission_shape clicked agent_choice topic w)
    as (_ & _ & evs & Htrace & _ & Hruns & _).
  rewrite Htrace, List.filter_app, Hruns. reflexivity.
Qed.

(** X4. The handler never calls [run] on the data analyst agent: a run
    call that the handler adds to the trace is on the selected agent or
    team, which is then not the data analyst. *)
Theorem launch_mission_never_runs_data_analyst
  (clicked : bool) (agent_choice topic : string) (w : World)
  (who : Member) (asked : string) :
  In (run_call who asked) (trace (snd (launch_mission ext clicked agent_choice topic w))) ->
  In (run_call who asked) (trace w)
  \/ (who = selected_agent (map_agent_choice agent_choice)
      /\ asked = topic
      /\ who <> MemberAgent data_analyst).
Proof.
  destruct (launch_mission_shape clicked agent_choice topic w)
    as (_ & _ & evs & Htrace & _ & Hruns & _).
  rewrite Htrace. intros [Hold|Hnew]%in_app_or; [left; exact Hold|right].
  assert (Hf : In (run_call who asked) (List.filter is_run_call evs))
    by (apply filter_In; split; [exact Hnew | reflexivity]).
  rewrite Hruns in Hf.
  destruct (clicked && PyStr.truthy (PyStr.strip topic)); cbn [andb] in Hf;
    [|destruct Hf].
  destruct (String.eqb agent_choice "📊 Data Analyst") eqn:Hda; cbn [negb] in Hf;
    [destruct Hf|].
  destruct Hf as [[= <- <-]|[]]. repeat split.
  intros Hsel. apply data_analyst_selected in Hsel. congruence.
Qed.

(** X15. Unless an exception leaves it, a launch with the button pressed
    shows exactly one result: one report, one warning or one error,
    never two and never none.  With the button not pressed, and when an
    exception leaves the handler, it shows none. *)
Theorem launch_mission_one_result
  (clicked : bool) (agent_choice topic : string) (w : World) :
  exists evs : list Event,
    trace (snd (launch_mission ext clicked agent_choice topic w)) = (trace w ++ evs)%list
    /\ length (List.filter is_result evs)
       = match fst (launch_mission ext clicked agent_choice topic w) with
         | Returned _ => if clicked then 1%nat else 0%nat
         | Raised _ => 0%nat
         end.
Proof.
  destruct (launch_mission_shape clicked agent_choice topic w)
    as (_ & _ & evs & Htrace & _ & _ & Hres).
  exists evs. split; [exact Htrace|].
  destruct (fst (launch_mission ext clicked agent_choice topic w)) as [[]|e].
  - exact Hres.
  - destruct Hres as [-> _]. reflexivity.
Qed.



(** X6. A Data Analyst dispatch on a dataset that does not load (the
    file is missing, or pandas rejects it): the exception of [read_csv]
    does not leave the handler; the dispatch returns after showing the
    mission error with the exception's text, and no report. *)
Theorem dispatch_data_analyst_load_error (topic : string) (w : World) (e : PyExc) :
  PyStr.strip topic <> "" ->
  fst (read_csv (data_path ext) w) = Raised e ->
  exists reads : list Event,
    dispatch ext "📊 Data Analyst" topic w
    = (Returned (),
       with_events w
         (analysis_prelude ext ++ reads ++ [st_error (mission_error (exc_str e))]))
    /\ forallb is_file_read reads = true.
Proof.
  intros Htopic Hread. rewrite (dispatch_analyzes _ _ Htopic).
  pose proof (analyze_dataset_cases ext (with_events w (analysis_prelude ext))) as Hcases.
  cbn [with_events files] in Hcases. unfold read_csv in Hread.
  destruct (files w !! data_path ext) as [text|] eqn:Hfile.
  - cbn [fst] in Hread. rewrite Hread in Hcases. destruct Hcases as [-> ->].
    exists [file_read (data_path ext)]. split; [|reflexivity].
    unfold with_events. cbn [environ files trace]. rewrite <- !app_assoc. reflexivity.
  - destruct Hcases as (e' & -> & Hexc & Hagain). cbn [fst] in Hread.
    unfold read_csv in Hagain. cbn [with_events files] in Hagain.
    rewrite Hfile in Hagain.
    assert (e' = e) as -> by congruence.
    exists []. split; [|reflexivity]. rewrite Hexc.
    unfold with_events. cbn [environ files trace]. rewrite <- !app_assoc. reflexivity.
Qed.

(** X12. On a topic with text in it and a selection other than the Data
    Analyst, when [run] returns an object that is true as a condition and
    has a [content] attribute, whatever its value, the dispatch shows a
    report whose box holds [str] of the value.  A [content] that is
    [None] is shown as the text None, not as the no-content warning. *)
Theorem dispatch_content_value
  (agent_choice topic : string) (result : RunResult) (v : PyValue) (w : World) :
  PyStr.strip topic <> "" ->
  agent_choice <> "📊 Data Analyst" ->
  run ext (selected_agent (map_agent_choice agent_choice)) topic = Returned result ->
  py_bool result = true ->
  content_attr result = AttrValue v ->
  dispatch ext agent_choice topic w
  = (Returned (),
     with_events w
       (launch_prelude ext agent_choice topic
        ++ [st_markdown
              (report_markup (map_agent_choice agent_choice) agent_choice (py_str v))
              true])).
Proof.
  intros Htopic Hchoice Hrun Htruth Hattr.
  rewrite (dispatch_runs _ _ _ _ Htopic Hchoice). cbv zeta. rewrite Hrun, Htruth.
  unfold try_except_Exception, mbind, Py_bind, hasattr_content, getattr_content,
    emit, with_events.
  rewrite Hattr. cbn [mret Py_ret environ files trace].
  rewrite <- app_assoc. reflexivity.
Qed.

End Handler.

(* ===================================================================== *)
(** ** The further properties at concrete inputs *)
(* ===================================================================== *)


Lemma analyze_dataset_no_trends_witness :
  analyze_dataset (extern_with (run_returns ResNone)) year_only_world
  = (Returned (report_text "count 3" ""),
     with_events year_only_world [file_read "/app/sample_air_quality.csv"]).
Proof.
  apply (analyze_dataset_no_trends (extern_with (run_returns ResNone)) year_only_world
           (with_events year_only_world [file_read "/app/sample_air_quality.csv"])
           [("Year", Int64 [2021])]).
  - vm_compute. reflexivity.
  - reflexivity.
  - reflexivity.
Defined.




Lemma selected_agent_name_witness :
  agent_name policy_reviewer = "📜 Policy Reviewer".
Proof.
  apply (selected_agent_name "📜 Policy Reviewer" policy_reviewer). reflexivity.
Defined.

Lemma selected_agent_in_team_witness :
  In (MemberAgent innovation_scout) (team_members sustainability_team).
Proof.
  apply (selected_agent_in_team "💡 Innovations Scout" innovation_scout). reflexivity.
Defined.

Lemma launch_mission_escapes_witness :
  fst (launch_mission (extern_with (run_raises interrupt)) true "📰 News Analyst"
         "Karachi" fresh_world)
  = Raised interrupt
  /\ isinstance_Exception interrupt = false.
Proof.
  assert (Hraised : fst (launch_mission (extern_with (run_raises interrupt)) true
                           "📰 News Analyst" "Karachi" fresh_world)
                    = Raised interrupt) by reflexivity.
  split; [exact Hraised|].
  apply (launch_mission_escapes (extern_with (run_raises interrupt)) true
           "📰 News Analyst" "Karachi" fresh_world interrupt Hraised).
Defined.

Lemma launch_mission_never_runs_data_analyst_witness :
  In (run_call (MemberAgent news_analyst) " Karachi ")
     (trace (snd (launch_mission (extern_with (run_returns ResNone)) true
                    "📰 News Analyst" " Karachi " fresh_world)))
  /\ MemberAgent news_analyst <> MemberAgent data_analyst.
Proof.
  assert (Hin : In (run_call (MemberAgent news_analyst) " Karachi ")
                  (trace (snd (launch_mission (extern_with (run_returns ResNone)) true
                                 "📰 News Analyst" " Karachi " fresh_world))))
    by (vm_compute; auto).
  split; [exact Hin|].
  destruct (launch_mission_never_runs_data_analyst
              (extern_with (run_returns ResNone)) true "📰 News Analyst" " Karachi "
              fresh_world (MemberAgent news_analyst) " Karachi " Hin)
    as [[]|(_ & _ & Hnot)].
  exact Hnot.
Defined.


Lemma dispatch_data_analyst_load_error_witness :
  (exists reads : list Event,
     dispatch (extern_with (run_returns ResNone)) "📊 Data Analyst" "Karachi" fresh_world
     = (Returned (),
        with_events fresh_world
          (analysis_prelude (extern_with (run_returns ResNone)) ++ reads
           ++ [st_error (mission_error
                           "[Errno 2] No such file or directory: '/app/sample_air_quality.csv'")]))
     /\ forallb is_file_read reads = true)
  /\ (exists reads : list Event,
        dispatch (extern_with (run_returns ResNone)) "📊 Data Analyst" "Karachi"
          empty_file_world
        = (Returned (),
           with_events empty_file_world
             (analysis_prelude (extern_with (run_returns ResNone)) ++ reads
              ++ [st_error (mission_error "No columns to parse from file")]))
        /\ forallb is_file_read reads = true).
Proof.
  split.
  - apply (dispatch_data_analyst_load_error (extern_with (run_returns ResNone))
             "Karachi" fresh_world
             (mkExc FileNotFoundError
                "[Errno 2] No such file or directory: '/app/sample_air_quality.csv'"));
      [vm_compute; discriminate | reflexivity].
  - apply (dispatch_data_analyst_load_error (extern_with (run_returns ResNone))
             "Karachi" empty_file_world
             (mkExc EmptyDataError "No columns to parse from file"));
      [vm_compute; discriminate | vm_compute; reflexivity].
Defined.

Lemma dispatch_content_value_witness :
  dispatch (extern_with (run_returns (ResObject true (AttrValue PNone))))
    "📰 News Analyst" "Karachi" fresh_world
  = (Returned (),
     with_events fresh_world
       (launch_prelude (extern_with (run_returns (ResObject true (AttrValue PNone))))
          "📰 News Analyst" "Karachi"
        ++ [st_markdown
              ("<div class='banner news-analyst-banner'>📰 📰 News Analyst Report</div>"
               +:+ "<div class='agent-box'>None</div>")
              true])).
Proof.
  apply (dispatch_content_value
           (extern_with (run_returns (ResObject true (AttrValue PNone))))
           "📰 News Analyst" "Karachi" (ResObject true (AttrValue PNone)) PNone
           fresh_world).
  - vm_compute. discriminate.
  - discriminate.
  - reflexivity.
  - reflexivity.
  - reflexivity.
Defined.
